(** * ReFiGrantFHE: a shallow embedding of src/contracts/ReFi_Grant_Fhe.sol

    The contract is modelled as a record of its storage and one function per
    external entry point.  A call either returns the new storage together with
    the events it emitted, or reverts with one of the contract's custom errors
    (or a Solidity panic); a reverting transaction leaves the storage as it was
    (EVM semantics, see [apply_tx]).

    Values of type [uint256], [address], [bytes32] and [euint32] handles are
    integers [Z].  Solidity mappings are total functions with the default value
    of their value type.  The FHE library is an external collaborator:
    - [fheMul] is the homomorphic multiplication (it yields a handle);
    - [keccak256] is the hash over the ABI-encoded words;
    - [checkSignatures] is the KMS proof verification (true = verified);
    - [FHE.requestDecryption] returns the library's request counter and
      increments it (the fresh request id of the oracle bridge). *)

From Stdlib Require Import ZArith List Lia Bool.
From Stdlib Require Import Strings.Byte.
From Stdlib Require Strings.String.
From stdpp Require Import base countable.
Import ListNotations.
Open Scope Z_scope.

(** ** Data model *)

Definition uint256_max : Z := 2 ^ 256.

(** [struct GrantApplication] *)
Record GrantApplication := mkGrantApplication {
  encryptedAmount : Z;
  encryptedScore : Z;
  encryptedGrantAmount : Z
}.

Definition default_application : GrantApplication :=
  mkGrantApplication 0 0 0.

(** [struct DecryptionContext] *)
Record DecryptionContext := mkDecryptionContext {
  dc_batchId : Z;
  dc_stateHash : Z;
  dc_processed : bool
}.

Definition default_context : DecryptionContext :=
  mkDecryptionContext 0 0 false.

(** The contract's storage, plus its own address and the request counter
    kept by the FHE library on its behalf. *)
Record state := mkState {
  owner : Z;
  isProvider : Z -> bool;
  paused : bool;
  cooldownSeconds : Z;
  lastSubmissionTime : Z -> Z;
  lastDecryptionRequestTime : Z -> Z;
  applications : Z -> GrantApplication;
  batchActive : Z -> bool;
  batchTotalEncryptedAmount : Z -> Z;
  batchTotalEncryptedScore : Z -> Z;
  decryptionContexts : Z -> DecryptionContext;
  counterRequest : Z;
  self : Z
}.

(** Custom errors of the contract, plus Solidity's panic and the revert of a
    failing [abi.decode]. *)
Inductive error :=
| NotOwner
| NotProvider
| PausedError
| CooldownActive
| BatchNotActive
| BatchAlreadyActive
| InvalidBatch
| ReplayAttempt
| StateMismatch
| DecryptionFailed
| Panic (code : Z)
| DecodeRevert.

Inductive event :=
| OwnershipTransferred (previousOwner newOwner : Z)
| ProviderAdded (provider : Z)
| ProviderRemoved (provider : Z)
| Paused (account : Z)
| Unpaused (account : Z)
| CooldownSecondsSet (oldCooldownSeconds newCooldownSeconds : Z)
| BatchOpened (batchId : Z)
| BatchClosed (batchId : Z)
| GrantSubmitted (provider batchId encAmount encScore : Z)
| DecryptionRequested (requestId batchId stateHash : Z)
| DecryptionCompleted (requestId batchId totalAmount totalScore grantAmount : Z).

Inductive result :=
| Ok (s : state) (evs : list event)
| Revert (e : error).

(** [msg.sender] and [block.timestamp]. *)
Record env := mkEnv {
  msg_sender : Z;
  block_timestamp : Z
}.

(** Mapping update [m[k] = v]. *)
Definition upd {V} (m : Z -> V) (k : Z) (v : V) : Z -> V :=
  fun k' => if Z.eqb k' k then v else m k'.

(** ** Storage writes *)

Definition set_owner (s : state) (o : Z) : state :=
  mkState o (isProvider s) (paused s) (cooldownSeconds s) (lastSubmissionTime s)
    (lastDecryptionRequestTime s) (applications s) (batchActive s)
    (batchTotalEncryptedAmount s) (batchTotalEncryptedScore s)
    (decryptionContexts s) (counterRequest s) (self s).

Definition set_isProvider (s : state) (a : Z) (b : bool) : state :=
  mkState (owner s) (upd (isProvider s) a b) (paused s) (cooldownSeconds s)
    (lastSubmissionTime s) (lastDecryptionRequestTime s) (applications s)
    (batchActive s) (batchTotalEncryptedAmount s) (batchTotalEncryptedScore s)
    (decryptionContexts s) (counterRequest s) (self s).

Definition set_paused (s : state) (b : bool) : state :=
  mkState (owner s) (isProvider s) b (cooldownSeconds s) (lastSubmissionTime s)
    (lastDecryptionRequestTime s) (applications s) (batchActive s)
    (batchTotalEncryptedAmount s) (batchTotalEncryptedScore s)
    (decryptionContexts s) (counterRequest s) (self s).

Definition set_cooldownSeconds (s : state) (c : Z) : state :=
  mkState (owner s) (isProvider s) (paused s) c (lastSubmissionTime s)
    (lastDecryptionRequestTime s) (applications s) (batchActive s)
    (batchTotalEncryptedAmount s) (batchTotalEncryptedScore s)
    (decryptionContexts s) (counterRequest s) (self s).

Definition set_lastSubmissionTime (s : state) (a t : Z) : state :=
  mkState (owner s) (isProvider s) (paused s) (cooldownSeconds s)
    (upd (lastSubmissionTime s) a t) (lastDecryptionRequestTime s)
    (applications s) (batchActive s) (batchTotalEncryptedAmount s)
    (batchTotalEncryptedScore s) (decryptionContexts s) (counterRequest s) (self s).

Definition set_lastDecryptionRequestTime (s : state) (a t : Z) : state :=
  mkState (owner s) (isProvider s) (paused s) (cooldownSeconds s)
    (lastSubmissionTime s) (upd (lastDecryptionRequestTime s) a t)
    (applications s) (batchActive s) (batchTotalEncryptedAmount s)
    (batchTotalEncryptedScore s) (decryptionContexts s) (counterRequest s) (self s).

Definition set_application (s : state) (b : Z) (app : GrantApplication) : state :=
  mkState (owner s) (isProvider s) (paused s) (cooldownSeconds s)
    (lastSubmissionTime s) (lastDecryptionRequestTime s)
    (upd (applications s) b app) (batchActive s) (batchTotalEncryptedAmount s)
    (batchTotalEncryptedScore s) (decryptionContexts s) (counterRequest s) (self s).

Definition set_batchActive (s : state) (b : Z) (v : bool) : state :=
  mkState (owner s) (isProvider s) (paused s) (cooldownSeconds s)
    (lastSubmissionTime s) (lastDecryptionRequestTime s) (applications s)
    (upd (batchActive s) b v) (batchTotalEncryptedAmount s)
    (batchTotalEncryptedScore s) (decryptionContexts s) (counterRequest s) (self s).

Definition set_decryptionContext (s : state) (r : Z) (c : DecryptionContext) : state :=
  mkState (owner s) (isProvider s) (paused s) (cooldownSeconds s)
    (lastSubmissionTime s) (lastDecryptionRequestTime s) (applications s)
    (batchActive s) (batchTotalEncryptedAmount s) (batchTotalEncryptedScore s)
    (upd (decryptionContexts s) r c) (counterRequest s) (self s).

Definition set_counterRequest (s : state) (n : Z) : state :=
  mkState (owner s) (isProvider s) (paused s) (cooldownSeconds s)
    (lastSubmissionTime s) (lastDecryptionRequestTime s) (applications s)
    (batchActive s) (batchTotalEncryptedAmount s) (batchTotalEncryptedScore s)
    (decryptionContexts s) n (self s).

(** ** Guards and checked arithmetic *)

(** [if (!c) revert e; k] *)
Definition require (c : bool) (e : error) (k : result) : result :=
  if c then k else Revert e.

(** Solidity 0.8 checked [a + b] on [uint256]: overflow is [Panic(0x11)]. *)
Definition checked_add (a b : Z) (k : Z -> result) : result :=
  if a + b <? uint256_max then k (a + b) else Revert (Panic 17).

(** [FHE.isInitialized]: a handle is initialized iff it is not the zero handle. *)
Definition isInitialized (h : Z) : bool := negb (Z.eqb h 0).

(** [FHE.toBytes32]: the handle itself. *)
Definition toBytes32 (h : Z) : Z := h.

(** [abi.encode(cts, address(this))] for a [bytes32[]] and an address, as its
    32-byte words: the offset of the dynamic array (0x40), the address, the
    array length, then the elements. *)
Definition abi_encode_cts (cts : list Z) (this : Z) : list Z :=
  [64; this; Z.of_nat (length cts)] ++ cts.

(** [abi.decode(cleartexts, (uint256))]: the first 32 bytes, big-endian;
    reverts when fewer than 32 bytes are given. *)
Definition be_bytes (bs : list byte) : Z :=
  fold_left (fun acc b => acc * 256 + Z.of_nat (Byte.to_nat b)) bs 0.

Definition abi_decode_uint256 (bs : list byte) : option Z :=
  if (length bs <? 32)%nat then None else Some (be_bytes (firstn 32 bs)).

(** ** The contract *)

Section Contract.

(** The FHE library and the hash, as the contract uses them. *)
Variable keccak256 : list Z -> Z.
Variable fheMul : Z -> Z -> Z.
Variable checkSignatures : Z -> list byte -> list byte -> bool.

(** [constructor()] *)
Definition deploy (deployer this : Z) : state * list event :=
  (mkState deployer (upd (fun _ => false) deployer true) false 60
     (fun _ => 0) (fun _ => 0) (fun _ => default_application) (fun _ => false)
     (fun _ => 0) (fun _ => 0) (fun _ => default_context) 0 this,
   [ProviderAdded deployer]).

(** [modifier onlyOwner] *)
Definition onlyOwner (s : state) (e : env) (k : result) : result :=
  require (Z.eqb (msg_sender e) (owner s)) NotOwner k.

(** [modifier onlyProvider] *)
Definition onlyProvider (s : state) (e : env) (k : result) : result :=
  require (isProvider s (msg_sender e)) NotProvider k.

(** [modifier whenNotPaused] *)
Definition whenNotPaused (s : state) (k : result) : result :=
  require (negb (paused s)) PausedError k.

Definition transferOwnership (s : state) (e : env) (newOwner : Z) : result :=
  onlyOwner s e
    (Ok (set_owner s newOwner) [OwnershipTransferred (owner s) newOwner]).

Definition addProvider (s : state) (e : env) (provider : Z) : result :=
  onlyOwner s e
    (if negb (isProvider s provider)
     then Ok (set_isProvider s provider true) [ProviderAdded provider]
     else Ok s []).

Definition removeProvider (s : state) (e : env) (provider : Z) : result :=
  onlyOwner s e
    (if isProvider s provider
     then Ok (set_isProvider s provider false) [ProviderRemoved provider]
     else Ok s []).

Definition pause (s : state) (e : env) : result :=
  onlyOwner s e (whenNotPaused s
    (Ok (set_paused s true) [Paused (msg_sender e)])).

Definition unpause (s : state) (e : env) : result :=
  onlyOwner s e
    (require (paused s) PausedError
       (Ok (set_paused s false) [Unpaused (msg_sender e)])).

Definition setCooldownSeconds (s : state) (e : env) (newCooldownSeconds : Z) : result :=
  onlyOwner s e
    (Ok (set_cooldownSeconds s newCooldownSeconds)
        [CooldownSecondsSet (cooldownSeconds s) newCooldownSeconds]).

Definition openBatch (s : state) (e : env) (batchId : Z) : result :=
  onlyOwner s e
    (require (negb (batchActive s batchId)) BatchAlreadyActive
       (Ok (set_batchActive s batchId true) [BatchOpened batchId])).

Definition closeBatch (s : state) (e : env) (batchId : Z) : result :=
  onlyOwner s e
    (require (batchActive s batchId) BatchNotActive
       (Ok (set_batchActive s batchId false) [BatchClosed batchId])).

Definition submitGrantApplication (s : state) (e : env)
    (batchId encAmount encScore : Z) : result :=
  onlyProvider s e (whenNotPaused s
    (require (batchActive s batchId) BatchNotActive
      (checked_add (lastSubmissionTime s (msg_sender e)) (cooldownSeconds s)
        (fun t =>
          if block_timestamp e <? t then Revert CooldownActive else
          let s1 := set_lastSubmissionTime s (msg_sender e) (block_timestamp e) in
          let s2 := set_application s1 batchId
                      (mkGrantApplication encAmount encScore 0) in
          Ok s2 [GrantSubmitted (msg_sender e) batchId encAmount encScore])))).

(** [FHE.requestDecryption(cts, selector)]: the library hands out its request
    counter and increments it. *)
Definition requestDecryption (s : state) (cts : list Z) : Z * state :=
  (counterRequest s, set_counterRequest s (counterRequest s + 1)).

(** [keccak256(abi.encode(cts, address(this)))] *)
Definition hashCiphertexts (s : state) (cts : list Z) : Z :=
  keccak256 (abi_encode_cts cts (self s)).

Definition calculateAndRequestGrantAmountDecryption (s : state) (e : env)
    (batchId : Z) : result :=
  onlyOwner s e (whenNotPaused s
    (checked_add (lastDecryptionRequestTime s (msg_sender e)) (cooldownSeconds s)
      (fun t =>
        if block_timestamp e <? t then Revert CooldownActive else
        let s1 := set_lastDecryptionRequestTime s (msg_sender e) (block_timestamp e) in
        let app := applications s1 batchId in
        require (isInitialized (encryptedAmount app)) InvalidBatch
        (require (isInitialized (encryptedScore app)) InvalidBatch
          (let g := fheMul (encryptedAmount app) (encryptedScore app) in
           let s2 := set_application s1 batchId
                       (mkGrantApplication (encryptedAmount app) (encryptedScore app) g) in
           let cts := [toBytes32 g] in
           let stateHash := hashCiphertexts s2 cts in
           let '(requestId, s3) := requestDecryption s2 cts in
           let s4 := set_decryptionContext s3 requestId
                       (mkDecryptionContext batchId stateHash false) in
           Ok s4 [DecryptionRequested requestId batchId stateHash]))))).

(** [myCallback]: no caller check.  A revert inside the [try] success block
    (the [abi.decode]) is not caught by the [catch]. *)
Definition myCallback (s : state) (e : env) (requestId : Z)
    (cleartexts proof : list byte) : result :=
  let ctx := decryptionContexts s requestId in
  if dc_processed ctx then Revert ReplayAttempt else
  let app := applications s (dc_batchId ctx) in
  let cts := [toBytes32 (encryptedGrantAmount app)] in
  let currentHash := hashCiphertexts s cts in
  if negb (Z.eqb currentHash (dc_stateHash ctx)) then Revert StateMismatch else
  if checkSignatures requestId cleartexts proof then
    match abi_decode_uint256 cleartexts with
    | None => Revert DecodeRevert
    | Some grantAmount =>
        let s1 := set_decryptionContext s requestId
                    (mkDecryptionContext (dc_batchId ctx) (dc_stateHash ctx) true) in
        Ok s1 [DecryptionCompleted requestId (dc_batchId ctx) 0 0 grantAmount]
    end
  else Revert DecryptionFailed.

(** External entry points. *)
Inductive call :=
| CTransferOwnership (newOwner : Z)
| CAddProvider (provider : Z)
| CRemoveProvider (provider : Z)
| CPause
| CUnpause
| CSetCooldownSeconds (c : Z)
| COpenBatch (batchId : Z)
| CCloseBatch (batchId : Z)
| CSubmitGrantApplication (batchId encAmount encScore : Z)
| CCalculateAndRequestGrantAmountDecryption (batchId : Z)
| CMyCallback (requestId : Z) (cleartexts proof : list byte).

Definition exec (s : state) (e : env) (c : call) : result :=
  match c with
  | CTransferOwnership o => transferOwnership s e o
  | CAddProvider p => addProvider s e p
  | CRemoveProvider p => removeProvider s e p
  | CPause => pause s e
  | CUnpause => unpause s e
  | CSetCooldownSeconds c => setCooldownSeconds s e c
  | COpenBatch b => openBatch s e b
  | CCloseBatch b => closeBatch s e b
  | CSubmitGrantApplication b a sc => submitGrantApplication s e b a sc
  | CCalculateAndRequestGrantAmountDecryption b =>
      calculateAndRequestGrantAmountDecryption s e b
  | CMyCallback r ct pf => myCallback s e r ct pf
  end.

(** A transaction: a revert discards every write of the call. *)
Inductive outcome := Succeeded (evs : list event) | Reverted (err : error).

Definition apply_tx (s : state) (e : env) (c : call) : state * outcome :=
  match exec s e c with
  | Ok s' evs => (s', Succeeded evs)
  | Revert err => (s, Reverted err)
  end.

(** One committed transaction, and the states reachable from deployment. *)
Inductive step : state -> state -> Prop :=
| step_tx s e c s' evs : exec s e c = Ok s' evs -> step s s'.

Inductive steps : state -> state -> Prop :=
| steps_refl s : steps s s
| steps_cons s1 s2 s3 : step s1 s2 -> steps s2 s3 -> steps s1 s3.

Inductive reachable : state -> Prop :=
| reachable_deploy deployer this : reachable (fst (deploy deployer this))
| reachable_step s s' : reachable s -> step s s' -> reachable s'.

(** The call [c] is a [calculateAndRequestGrantAmountDecryption] for batch [b]. *)
Definition rederives (b : Z) (c : call) : bool :=
  match c with
  | CCalculateAndRequestGrantAmountDecryption b' => Z.eqb b' b
  | _ => false
  end.

(** Committed transactions none of which re-derives batch [b]. *)
Inductive steps_without_rederive (b : Z) : state -> state -> Prop :=
| swr_refl s : steps_without_rederive b s s
| swr_cons s1 e c s2 evs s3 :
    exec s1 e c = Ok s2 evs -> rederives b c = false ->
    steps_without_rederive b s2 s3 -> steps_without_rederive b s1 s3.

End Contract.

(** ** The web front end (src/frontend/web/src/App.tsx)

    The pure parts of the [App] component that derive what the page shows
    from the loaded project list.  Strings are [String.string]; JavaScript's
    [toLowerCase] is the runtime's case mapping, taken as a parameter. *)

Module Frontend.

Import Stdlib.Strings.String.
Local Open Scope string_scope.

(** [interface GrantProject]; [status] is the string read from the stored
    JSON ([projectData.status || "pending"]). *)
Record GrantProject := mkGrantProject {
  id : String.string;
  name : String.string;
  description : String.string;
  encryptedFunding : String.string;
  encryptedVotes : String.string;
  category : String.string;
  timestamp : Z;
  project_owner : String.string;
  status : String.string
}.

(** [s.includes(t)]: [t] occurs in [s] (the empty string occurs everywhere). *)
Definition includes (s t : String.string) : bool :=
  match String.index 0 t s with Some _ => true | None => false end.

(** [projects.filter(p => p.status === st).length] *)
Definition countStatus (projects : list GrantProject) (st : String.string) : nat :=
  List.length (List.filter (fun p => String.eqb (status p) st) projects).

Definition approvedCount (projects : list GrantProject) : nat :=
  countStatus projects "approved".
Definition pendingCount (projects : list GrantProject) : nat :=
  countStatus projects "pending".
Definition rejectedCount (projects : list GrantProject) : nat :=
  countStatus projects "rejected".

Section Filter.

Variable toLowerCase : String.string -> String.string.

(** [filteredProjects] *)
Definition filteredProjects (searchTerm filterCategory : String.string)
    (projects : list GrantProject) : list GrantProject :=
  List.filter (fun project =>
    let matchesSearch :=
      includes (toLowerCase (name project)) (toLowerCase searchTerm) ||
      includes (toLowerCase (description project)) (toLowerCase searchTerm) in
    let matchesCategory :=
      String.eqb filterCategory "all" || String.eqb (category project) filterCategory in
    matchesSearch && matchesCategory) projects.

End Filter.

(** [[...new Set(xs)]]: the distinct elements in order of first occurrence. *)
Definition set_insert (acc : list String.string) (x : String.string) : list String.string :=
  if existsb (String.eqb x) acc then acc else acc ++ [x].

Definition distinct (xs : list String.string) : list String.string :=
  fold_left set_insert xs [].

(** [categories] *)
Definition categories (projects : list GrantProject) : list String.string :=
  distinct (map category projects).

End Frontend.

(** ** Concrete instances

    A collision-free, never-zero hash on encoded words (stdpp's injective
    [encode] into [positive]), a handle-producing multiplication, and a
    verifier that accepts every proof; used to run the contract on concrete
    transactions. *)

Definition keccak256_model (l : list Z) : Z := Zpos (encode l).
Definition fheMul_model (a b : Z) : Z := Zpos (encode [a; b]).
Definition checkSignatures_model (requestId : Z) (cleartexts proof : list byte) : bool :=
  true.

Definition exec_model := exec keccak256_model fheMul_model checkSignatures_model.

(** The storage after a transaction (the old one when it reverts). *)
Definition run (s : state) (e : env) (c : call) : state :=
  fst (apply_tx keccak256_model fheMul_model checkSignatures_model s e c).

Definition succeeds (r : result) : bool :=
  match r with Ok _ _ => true | Revert _ => false end.

(** A 32-byte cleartext encoding 42. *)
Definition cleartext42 : list byte := repeat x00 31 ++ [x2a].

(** Owner 1 deploys at address 1000, opens batch 7, submits (11, 22) at
    t = 100, requests the decryption (request id 0) and the oracle answers. *)
Definition demo_s0 : state := fst (deploy 1 1000).
Definition demo_s1 : state := run demo_s0 (mkEnv 1 100) (COpenBatch 7).
Definition demo_s2 : state := run demo_s1 (mkEnv 1 100) (CSubmitGrantApplication 7 11 22).
Definition demo_s3 : state :=
  run demo_s2 (mkEnv 1 100) (CCalculateAndRequestGrantAmountDecryption 7).
Definition demo_s4 : state := run demo_s3 (mkEnv 5 200) (CMyCallback 0 cleartext42 []).
(** Instead of the answer, a resubmission to batch 7 at t = 200. *)
Definition demo_s5 : state := run demo_s3 (mkEnv 1 200) (CSubmitGrantApplication 7 3 4).
(** From [demo_s2], the owner sets the cooldown to [2^256 - 1]. *)
Definition demo_s6 : state :=
  run demo_s2 (mkEnv 1 150) (CSetCooldownSeconds (uint256_max - 1)).
(** From [demo_s0], the owner pauses at t = 100. *)
Definition demo_paused : state := run demo_s0 (mkEnv 1 100) CPause.
(** From [demo_s3], provider 1 resubmits the same handles (11, 22) to batch 7
    and the owner re-derives batch 7 (request id 1). *)
Definition demo_s7 : state := run demo_s3 (mkEnv 1 200) (CSubmitGrantApplication 7 11 22).
Definition demo_s8 : state :=
  run demo_s7 (mkEnv 1 200) (CCalculateAndRequestGrantAmountDecryption 7).
(** From [demo_s5], the owner closes batch 7. *)
Definition demo_s9 : state := run demo_s5 (mkEnv 1 250) (CCloseBatch 7).

(** A concrete [toLowerCase] on ASCII text and a loaded project list. *)
Module FrontendDemo.

Import Stdlib.Strings.String Stdlib.Strings.Ascii.
Local Open Scope string_scope.

Fixpoint toLowerCase_ascii (s : String.string) : String.string :=
  match s with
  | EmptyString => EmptyString
  | String c r =>
      let n := nat_of_ascii c in
      String (if (65 <=? n)%nat && (n <=? 90)%nat then ascii_of_nat (n + 32) else c)
             (toLowerCase_ascii r)
  end.

Definition project_solar : Frontend.GrantProject :=
  Frontend.mkGrantProject "1" "Solar Roofs" "Community solar panels" "RkhFLTEw"
    "RkhFLTM=" "Energy" 1700000000 "0xabc" "approved".
Definition project_trees : Frontend.GrantProject :=
  Frontend.mkGrantProject "2" "Urban Trees" "Plant trees in the city" "RkhFLTU="
    "RkhFLTE=" "Forestry" 1700000100 "0xdef" "pending".
Definition project_wind : Frontend.GrantProject :=
  Frontend.mkGrantProject "3" "Wind Co-op" "Wind and SOLAR storage" "RkhFLTg="
    "RkhFLTI=" "Energy" 1700000200 "0xabc" "funded".

Definition demo_projects : list Frontend.GrantProject :=
  [project_solar; project_trees; project_wind].

End FrontendDemo.

(** ** Proofs *)

Section Proofs.

Variable keccak256 : list Z -> Z.
Variable fheMul : Z -> Z -> Z.
Variable checkSignatures : Z -> list byte -> list byte -> bool.


(** Unfold a successful call and split on every branch of its code. *)
Ltac split_code H :=
  repeat match type of H with
  | context [if ?c then _ else _] => let E := fresh "E" in destruct c eqn:E
  | context [match ?c with Some _ => _ | None => _ end] =>
      let E := fresh "E" in destruct c eqn:E
  end.

Ltac unfold_call H :=
  unfold exec, transferOwnership, addProvider, removeProvider, pause, unpause,
    setCooldownSeconds, openBatch, closeBatch, submitGrantApplication,
    calculateAndRequestGrantAmountDecryption, myCallback, requestDecryption,
    onlyOwner, onlyProvider, whenNotPaused, require, checked_add in H;
  split_code H; try discriminate H.

Lemma upd_same {V} (m : Z -> V) k v : upd m k v k = v.
Proof. unfold upd. now rewrite Z.eqb_refl. Qed.

Lemma upd_other {V} (m : Z -> V) k k' v : k' <> k -> upd m k v k' = m k'.
Proof. intros H. unfold upd. now rewrite (proj2 (Z.eqb_neq k' k) H). Qed.

(** No context is stored at or above the library's request counter. *)
Definition fresh_contexts (s : state) : Prop :=
  forall r, counterRequest s <= r -> decryptionContexts s r = default_context.

Hypothesis keccak256_nonzero : forall l, keccak256 l <> 0.

Lemma step_fresh_contexts s s' :
  fresh_contexts s -> step keccak256 fheMul checkSignatures s s' -> fresh_contexts s'.
Proof.
  intros Hf Hs. destruct Hs as [s e c s' evs H].
  destruct c; unfold_call H; inversion H; subst; clear H;
    unfold fresh_contexts in *; simpl in *; auto.
  - (* calculateAndRequestGrantAmountDecryption: stored at the counter *)
    intros r Hr. rewrite upd_other by lia. apply Hf. lia.
  - (* myCallback: a context below the counter, or the hash check fails *)
    intros r Hr. destruct (Z.eq_dec r requestId) as [->|Hne].
    + exfalso. rewrite (Hf requestId Hr) in E0. simpl in E0.
      apply negb_false_iff, Z.eqb_eq in E0. unfold hashCiphertexts in E0.
      exact (keccak256_nonzero _ E0).
    + rewrite upd_other by exact Hne. now apply Hf.
Qed.

Lemma reachable_fresh_contexts s : reachable keccak256 fheMul checkSignatures s -> fresh_contexts s.
Proof.
  induction 1 as [d t|s s' _ IH Hs].
  - intros r _. reflexivity.
  - eapply step_fresh_contexts; eassumption.
Qed.

Lemma step_processed s s' r :
  fresh_contexts s -> step keccak256 fheMul checkSignatures s s' ->
  dc_processed (decryptionContexts s r) = true ->
  dc_processed (decryptionContexts s' r) = true.
Proof.
  intros Hf Hs Hp. destruct Hs as [s e c s' evs H].
  destruct c; unfold_call H; inversion H; subst; clear H; simpl in *; auto.
  - destruct (Z.eq_dec r (counterRequest s)) as [->|Hne].
    + rewrite (Hf _ (Z.le_refl _)) in Hp. discriminate.
    + now rewrite upd_other by exact Hne.
  - unfold upd. destruct (r =? requestId); auto.
Qed.

Lemma steps_processed s s' r :
  reachable keccak256 fheMul checkSignatures s -> steps keccak256 fheMul checkSignatures s s' ->
  dc_processed (decryptionContexts s r) = true ->
  reachable keccak256 fheMul checkSignatures s' /\ dc_processed (decryptionContexts s' r) = true.
Proof.
  intros Hr Hs. induction Hs as [s|s1 s2 s3 H12 H23 IH]; intros Hp; auto.
  apply IH.
  - econstructor; eassumption.
  - eapply step_processed; eauto using reachable_fresh_contexts.
Qed.

(** C1 *)
(** Exactly-once finalization (claim C1): once the context of request [r] is
    processed in a reachable state, it stays processed after any further
    transactions, and every later [myCallback] for [r] (any caller, time,
    cleartext and proof) reverts with [ReplayAttempt]. *)
Theorem exactly_once_finalization s r :
  reachable keccak256 fheMul checkSignatures s ->
  dc_processed (decryptionContexts s r) = true ->
  forall s', steps keccak256 fheMul checkSignatures s s' ->
    dc_processed (decryptionContexts s' r) = true /\
    (forall e cleartexts proof,
        exec keccak256 fheMul checkSignatures s' e (CMyCallback r cleartexts proof) = Revert ReplayAttempt).
Proof.
  intros Hr Hp s' Hs.
  destruct (steps_processed s s' r Hr Hs Hp) as [_ Hp'].
  split; [exact Hp'|].
  intros e ct pf. simpl. unfold myCallback. now rewrite Hp'.
Qed.

(** The hash [myCallback] recomputes for the context of [r]. *)
Definition recomputed_hash (s : state) (r : Z) : Z :=
  hashCiphertexts keccak256 s
    [toBytes32 (encryptedGrantAmount
                  (applications s (dc_batchId (decryptionContexts s r))))].

(** C7 *)
(** Callback check ordering (claim C7): a processed context makes
    [myCallback] revert [ReplayAttempt] whatever the hash and the proof are;
    an unprocessed context whose recomputed hash differs from the stored one
    makes it revert [StateMismatch] whatever the proof verifier answers, so
    the verifier's answer is never consulted. *)
Theorem callback_check_order s e r cleartexts proof :
  (dc_processed (decryptionContexts s r) = true ->
   forall chk, myCallback keccak256 chk s e r cleartexts proof = Revert ReplayAttempt) /\
  (dc_processed (decryptionContexts s r) = false ->
   recomputed_hash s r <> dc_stateHash (decryptionContexts s r) ->
   forall chk, myCallback keccak256 chk s e r cleartexts proof = Revert StateMismatch).
Proof.
  split.
  - intros Hp chk. unfold myCallback. now rewrite Hp.
  - intros Hp Hh chk. unfold myCallback. rewrite Hp.
    unfold recomputed_hash in Hh.
    apply Z.eqb_neq in Hh. now rewrite Hh.
Qed.

(** C9 *)
(** Caller independence (claim C9): [myCallback] reads neither [msg.sender]
    nor [block.timestamp]; two calls from the same state with the same
    arguments have the same outcome and the same resulting state, whoever
    sends them. *)
Theorem callback_caller_independent s e1 e2 r cleartexts proof :
  exec keccak256 fheMul checkSignatures s e1 (CMyCallback r cleartexts proof) =
  exec keccak256 fheMul checkSignatures s e2 (CMyCallback r cleartexts proof).
Proof. reflexivity. Qed.

(** C10 *)
(** Callback frame (claim C10): a successful [myCallback] for [r] sets the
    processed flag of the context of [r] (keeping its batch id and hash) and
    emits one [DecryptionCompleted]; every other part of the storage, including
    every other context, is unchanged. *)
Theorem callback_frame s e r cleartexts proof s' evs :
  exec keccak256 fheMul checkSignatures s e (CMyCallback r cleartexts proof) = Ok s' evs ->
  owner s' = owner s /\
  isProvider s' = isProvider s /\
  paused s' = paused s /\
  cooldownSeconds s' = cooldownSeconds s /\
  batchActive s' = batchActive s /\
  applications s' = applications s /\
  lastSubmissionTime s' = lastSubmissionTime s /\
  lastDecryptionRequestTime s' = lastDecryptionRequestTime s /\
  batchTotalEncryptedAmount s' = batchTotalEncryptedAmount s /\
  batchTotalEncryptedScore s' = batchTotalEncryptedScore s /\
  counterRequest s' = counterRequest s /\
  self s' = self s /\
  dc_processed (decryptionContexts s r) = false /\
  decryptionContexts s' r =
    mkDecryptionContext (dc_batchId (decryptionContexts s r))
      (dc_stateHash (decryptionContexts s r)) true /\
  (forall r', r' <> r -> decryptionContexts s' r' = decryptionContexts s r') /\
  (exists grantAmount,
      evs = [DecryptionCompleted r (dc_batchId (decryptionContexts s r)) 0 0 grantAmount]).
Proof.
  intros H. unfold_call H. inversion H; subst; clear H; simpl.
  repeat split; auto.
  - apply upd_same.
  - intros r' Hne. now apply upd_other.
  - eexists. reflexivity.
Qed.

(** What stays true of storage, after a submission to batch [b], while no
    transaction re-derives [b]: the grant handle of [b] is the zero handle,
    the context of request [r] is [ctx], [r] is below the request counter and
    the contract's address is [this]. *)
Definition binding_inv (b r : Z) (ctx : DecryptionContext) (this : Z) (s : state) : Prop :=
  encryptedGrantAmount (applications s b) = 0 /\ decryptionContexts s r = ctx /\
  r < counterRequest s /\ self s = this.

Lemma zero_handle_hash_differs this g :
  (forall l1 l2, keccak256 l1 = keccak256 l2 -> l1 = l2) ->
  isInitialized g = true ->
  keccak256 (abi_encode_cts [toBytes32 0] this) <>
  keccak256 (abi_encode_cts [toBytes32 g] this).
Proof.
  intros Hinj Hg Heq. apply Hinj in Heq.
  unfold abi_encode_cts, toBytes32 in Heq. simpl in Heq.
  injection Heq as Hg0. subst g. discriminate Hg.
Qed.

Lemma binding_inv_step b r ctx this g s e c s' evs :
  (forall l1 l2, keccak256 l1 = keccak256 l2 -> l1 = l2) ->
  dc_batchId ctx = b -> isInitialized g = true ->
  dc_stateHash ctx = keccak256 (abi_encode_cts [toBytes32 g] this) ->
  binding_inv b r ctx this s ->
  exec keccak256 fheMul checkSignatures s e c = Ok s' evs ->
  rederives b c = false ->
  binding_inv b r ctx this s'.
Proof.
  intros Hinj Hb Hg Hh (H1 & H2 & H3 & H4) H Hc. revert Hb.
  destruct c as [o|p|p| | |cd|b0|b0|b0 a sc|b0|r0 ct pf]; unfold_call H;
    inversion H; subst; clear H; unfold binding_inv; cbn in *; intros Hb;
    try exact (conj H1 (conj eq_refl (conj H3 eq_refl))).
  - (* submitGrantApplication *)
    refine (conj _ (conj eq_refl (conj H3 eq_refl))).
    unfold upd. destruct (b =? b0); [reflexivity|exact H1].
  - (* calculateAndRequestGrantAmountDecryption for another batch *)
    apply Z.eqb_neq in Hc.
    refine (conj _ (conj _ (conj _ eq_refl))).
    + rewrite upd_other by congruence. exact H1.
    + apply upd_other. lia.
    + lia.
  - (* myCallback *)
    refine (conj H1 (conj _ (conj H3 eq_refl))).
    destruct (Z.eq_dec r r0) as [->|Hne]; [|now apply upd_other].
    exfalso. rewrite Hb, H1 in E0. unfold hashCiphertexts in E0.
    apply negb_false_iff, Z.eqb_eq in E0. rewrite Hh in E0.
    exact (zero_handle_hash_differs _ g Hinj Hg E0).
Qed.

(** C2 *)
(** State binding (amended claim C2): let request [r] be outstanding for
    batch [b] in a reachable state, its stored hash committing to an
    initialized grant-amount handle [g].  If [submitGrantApplication] for [b]
    succeeds, then after any further transactions none of which is a
    [calculateAndRequestGrantAmountDecryption] for [b], the callback for [r]
    reverts [StateMismatch], whatever the cleartext, the proof and the proof
    verifier's answer (keccak256 taken collision-free and never 0). *)
Theorem state_binding_until_rederive s e b encAmount encScore s1 evs r g s2 :
  (forall l1 l2, keccak256 l1 = keccak256 l2 -> l1 = l2) ->
  reachable keccak256 fheMul checkSignatures s ->
  dc_batchId (decryptionContexts s r) = b ->
  dc_processed (decryptionContexts s r) = false ->
  isInitialized g = true ->
  dc_stateHash (decryptionContexts s r) = hashCiphertexts keccak256 s [toBytes32 g] ->
  submitGrantApplication s e b encAmount encScore = Ok s1 evs ->
  steps_without_rederive keccak256 fheMul checkSignatures b s1 s2 ->
  forall chk e' cleartexts proof,
    exec keccak256 fheMul chk s2 e' (CMyCallback r cleartexts proof) =
    Revert StateMismatch.
Proof.
  intros Hinj Hr Hb Hp Hg Hh Hsub Hsteps chk e' ct pf.
  assert (Hlt : r < counterRequest s).
  { destruct (Z_lt_le_dec r (counterRequest s)) as [Hlt|Hle]; [exact Hlt|].
    exfalso. pose proof (reachable_fresh_contexts s Hr r Hle) as Hd.
    rewrite Hd in Hh. unfold hashCiphertexts in Hh. cbn in Hh.
    exact (keccak256_nonzero _ (eq_sym Hh)). }
  assert (Hinv : binding_inv b r (decryptionContexts s r) (self s) s1).
  { unfold_call Hsub. inversion Hsub; subst; clear Hsub.
    unfold binding_inv; cbn. rewrite upd_same. repeat split. exact Hlt. }
  clear Hsub.
  induction Hsteps as [s2|s2 e2 c s3 evs2 s4 Hx Hc _ IH].
  - destruct Hinv as (H1 & H2 & _ & H4).
    cbn. unfold myCallback. rewrite H2, Hp. cbn [negb].
    replace (negb _) with true; [reflexivity|].
    symmetry. apply negb_true_iff, Z.eqb_neq. rewrite Hb, H1, Hh.
    unfold hashCiphertexts. rewrite H4.
    exact (zero_handle_hash_differs _ g Hinj Hg).
  - apply IH. eapply binding_inv_step; eassumption.
Qed.

(** C3 *)
(** Requests never issued (amended claim C3): the contract has no
    [UnknownRequest] check.  A request id the library never handed out (at or
    above its counter) reads the default context (batch 0, hash 0, not
    processed) in every reachable state, and [myCallback] on it reverts
    [StateMismatch] for all arguments, keccak256 never returning 0. *)
Theorem unknown_request_state_mismatch s r :
  reachable keccak256 fheMul checkSignatures s ->
  counterRequest s <= r ->
  decryptionContexts s r = default_context /\
  (forall e cleartexts proof,
      exec keccak256 fheMul checkSignatures s e (CMyCallback r cleartexts proof) = Revert StateMismatch).
Proof.
  intros Hr Hle.
  pose proof (reachable_fresh_contexts s Hr r Hle) as Hd.
  split; [exact Hd|]. intros e ct pf. simpl. unfold myCallback.
  rewrite Hd. simpl.
  replace (negb _) with true; [reflexivity|].
  symmetry. apply negb_true_iff, Z.eqb_neq. apply keccak256_nonzero.
Qed.

(** C4 *)
(** Derivation and request (claim C4): called by the owner, unpaused, with
    the cooldown elapsed, [calculateAndRequestGrantAmountDecryption b] reverts
    [InvalidBatch] when the amount or the score handle of [b] is uninitialized;
    otherwise it stores [fheMul amount score] as the grant amount, hashes
    [abi.encode([grant], this)], and stores the unprocessed context for [b]
    under the request id the library returns (its counter). *)
Theorem request_postcondition s e b :
  msg_sender e = owner s ->
  paused s = false ->
  lastDecryptionRequestTime s (msg_sender e) + cooldownSeconds s <= block_timestamp e ->
  block_timestamp e < uint256_max ->
  let app := applications s b in
  (isInitialized (encryptedAmount app) = false \/
   isInitialized (encryptedScore app) = false ->
   calculateAndRequestGrantAmountDecryption keccak256 fheMul s e b = Revert InvalidBatch) /\
  (isInitialized (encryptedAmount app) = true ->
   isInitialized (encryptedScore app) = true ->
   let g := fheMul (encryptedAmount app) (encryptedScore app) in
   let h := keccak256 (abi_encode_cts [toBytes32 g] (self s)) in
   exists s',
     calculateAndRequestGrantAmountDecryption keccak256 fheMul s e b =
       Ok s' [DecryptionRequested (counterRequest s) b h] /\
     applications s' b =
       mkGrantApplication (encryptedAmount app) (encryptedScore app) g /\
     decryptionContexts s' (counterRequest s) = mkDecryptionContext b h false /\
     counterRequest s' = counterRequest s + 1 /\
     lastDecryptionRequestTime s' (msg_sender e) = block_timestamp e).
Proof.
  intros Ho Hp Hc Ht app.
  unfold calculateAndRequestGrantAmountDecryption, onlyOwner, whenNotPaused,
    checked_add.
  rewrite Ho, Z.eqb_refl, Hp. cbn [require negb].
  rewrite <- Ho.
  destruct (_ <? uint256_max) eqn:E1; [|apply Z.ltb_ge in E1; lia].
  destruct (block_timestamp e <? _) eqn:E2; [apply Z.ltb_lt in E2; lia|].
  cbn [applications set_lastDecryptionRequestTime].
  fold app. split.
  - intros [Ha|Hs]; unfold require.
    + now rewrite Ha.
    + rewrite Hs. destruct (isInitialized (encryptedAmount app)); reflexivity.
  - intros Ha Hs. unfold require. rewrite Ha, Hs.
    eexists. split; [reflexivity|]. cbn.
    repeat split; try apply upd_same; lia.
Qed.

(** A reverted call commits nothing. *)
Lemma apply_tx_revert s e c err :
  exec keccak256 fheMul checkSignatures s e c = Revert err -> apply_tx keccak256 fheMul checkSignatures s e c = (s, Reverted err).
Proof. intros H. unfold apply_tx. now rewrite H. Qed.

(** Submission outcomes, for provider [p = msg.sender] at time
    [now < 2^256]: [submitGrantApplication] succeeds iff [p] is a provider, the
    contract is unpaused, the batch is active and
    [lastSubmissionTime p + cooldownSeconds <= now].  Otherwise it reverts with
    the first failing check, in the order [NotProvider], [PausedError],
    [BatchNotActive], then [CooldownActive] -- or [Panic(0x11)] when
    [lastSubmissionTime p + cooldownSeconds] overflows [uint256].  A revert
    leaves the storage unchanged; a success overwrites the batch's application
    with the two handles and a zero grant handle, records [now] for [p], and
    emits [GrantSubmitted]. *)
Theorem submit_outcomes s e b encAmount encScore :
  block_timestamp e < uint256_max ->
  let p := msg_sender e in
  let now := block_timestamp e in
  let due := lastSubmissionTime s p + cooldownSeconds s in
  let res := submitGrantApplication s e b encAmount encScore in
  ((exists s' evs, res = Ok s' evs) <->
     isProvider s p = true /\ paused s = false /\ batchActive s b = true /\ due <= now) /\
  (isProvider s p = false -> res = Revert NotProvider) /\
  (isProvider s p = true -> paused s = true -> res = Revert PausedError) /\
  (isProvider s p = true -> paused s = false -> batchActive s b = false ->
   res = Revert BatchNotActive) /\
  (isProvider s p = true -> paused s = false -> batchActive s b = true ->
   now < due < uint256_max -> res = Revert CooldownActive) /\
  (isProvider s p = true -> paused s = false -> batchActive s b = true ->
   uint256_max <= due -> res = Revert (Panic 17)) /\
  (forall err, res = Revert err ->
   apply_tx keccak256 fheMul checkSignatures s e
     (CSubmitGrantApplication b encAmount encScore) = (s, Reverted err)) /\
  (forall s' evs, res = Ok s' evs ->
   s' = set_application (set_lastSubmissionTime s p now) b
          (mkGrantApplication encAmount encScore 0) /\
   evs = [GrantSubmitted p b encAmount encScore]).
Proof.
  intros Ht p now due res.
  unfold res, submitGrantApplication, onlyProvider, whenNotPaused, require,
    checked_add; fold p now due.
  split; [split|repeat refine (conj _ _)].
  - intros [s' [evs H]].
    destruct (isProvider s p) eqn:E1; [|discriminate].
    destruct (paused s) eqn:E2; [discriminate|].
    destruct (batchActive s b) eqn:E3; [|discriminate].
    destruct (due <? uint256_max) eqn:E4; [|discriminate].
    destruct (now <? due) eqn:E5; [discriminate|].
    apply Z.ltb_ge in E5. repeat split; auto.
  - intros (E1 & E2 & E3 & E4). rewrite E1, E2, E3. simpl.
    replace (due <? uint256_max) with true by (symmetry; apply Z.ltb_lt; lia).
    replace (now <? due) with false by (symmetry; apply Z.ltb_ge; lia).
    eauto.
  - intros E1. now rewrite E1.
  - intros E1 E2. now rewrite E1, E2.
  - intros E1 E2 E3. now rewrite E1, E2, E3.
  - intros E1 E2 E3 [E4 E5]. rewrite E1, E2, E3. simpl.
    replace (due <? uint256_max) with true by (symmetry; apply Z.ltb_lt; lia).
    replace (now <? due) with true by (symmetry; apply Z.ltb_lt; lia).
    reflexivity.
  - intros E1 E2 E3 E4. rewrite E1, E2, E3. simpl.
    replace (due <? uint256_max) with false by (symmetry; apply Z.ltb_ge; lia).
    reflexivity.
  - intros err H. unfold apply_tx. simpl.
    unfold submitGrantApplication, onlyProvider, whenNotPaused, require,
      checked_add. fold p now due. now rewrite H.
  - destruct (isProvider s p); [|discriminate].
    destruct (paused s); [discriminate|].
    destruct (batchActive s b); [|discriminate].
    destruct (due <? uint256_max); [|discriminate].
    destruct (now <? due); [discriminate|].
    intros s' evs H. inversion H; subst; now split.
Qed.

(** C6 *)
(** Cooldown scenario (amended claim C6): with [cooldownSeconds = 60] and a
    provider [p] whose [lastSubmissionTime] is the default 0, into an active
    batch of an unpaused contract, a submission at any [t < 60] (so also at
    [t = 0]) reverts [CooldownActive].  Shifted to a start time [t0 >= 60],
    the scenario holds: [t0] succeeds, [t0 + 30] reverts [CooldownActive] and
    [t0 + 61] succeeds. *)
Theorem cooldown_scenario s p b encAmount encScore :
  isProvider s p = true ->
  paused s = false ->
  batchActive s b = true ->
  cooldownSeconds s = 60 ->
  lastSubmissionTime s p = 0 ->
  (forall t, t < 60 ->
     submitGrantApplication s (mkEnv p t) b encAmount encScore = Revert CooldownActive) /\
  (forall t0, 60 <= t0 -> t0 + 61 < uint256_max ->
   exists s1 evs1,
     submitGrantApplication s (mkEnv p t0) b encAmount encScore = Ok s1 evs1 /\
     submitGrantApplication s1 (mkEnv p (t0 + 30)) b encAmount encScore =
       Revert CooldownActive /\
     exists s2 evs2,
       submitGrantApplication s1 (mkEnv p (t0 + 61)) b encAmount encScore = Ok s2 evs2).
Proof.
  intros Hp Hpa Hb Hc Hl.
  unfold submitGrantApplication, onlyProvider, whenNotPaused, require,
    checked_add; simpl.
  rewrite Hp, Hpa, Hb, Hc, Hl. simpl negb. cbv iota.
  split.
  - intros t Ht.
    replace (0 + 60 <? uint256_max) with true by reflexivity.
    replace (t <? 0 + 60) with true by (symmetry; apply Z.ltb_lt; lia).
    reflexivity.
  - intros t0 H60 Hmax.
    replace (0 + 60 <? uint256_max) with true by reflexivity.
    replace (t0 <? 0 + 60) with false by (symmetry; apply Z.ltb_ge; lia).
    eexists _, _. split; [reflexivity|]. simpl.
    rewrite upd_same, Hp, Hpa, Hb, Hc. simpl negb. cbv iota.
    replace (t0 + 60 <? uint256_max) with true by (symmetry; apply Z.ltb_lt; lia).
    replace (t0 + 30 <? t0 + 60) with true by (symmetry; apply Z.ltb_lt; lia).
    replace (t0 + 61 <? t0 + 60) with false by (symmetry; apply Z.ltb_ge; lia).
    split; [reflexivity|]. eauto.
Qed.

(** C8 *)
(** Owner operations while paused (amended claim C8): when the contract is
    paused, the owner can still transfer ownership, add and remove providers,
    unpause and set the cooldown; [openBatch] and [closeBatch] are not gated by
    the pause flag (they succeed exactly when the batch is inactive,
    respectively active); [pause] itself reverts [PausedError], as do
    [submitGrantApplication] (for any provider) and
    [calculateAndRequestGrantAmountDecryption]. *)
Theorem owner_ops_while_paused s e :
  paused s = true ->
  msg_sender e = owner s ->
  (forall newOwner, exists s' evs, transferOwnership s e newOwner = Ok s' evs) /\
  (forall a, exists s' evs, addProvider s e a = Ok s' evs) /\
  (forall a, exists s' evs, removeProvider s e a = Ok s' evs) /\
  (exists s' evs, unpause s e = Ok s' evs) /\
  (forall c, exists s' evs, setCooldownSeconds s e c = Ok s' evs) /\
  (forall b, (exists s' evs, openBatch s e b = Ok s' evs) <-> batchActive s b = false) /\
  (forall b, (exists s' evs, closeBatch s e b = Ok s' evs) <-> batchActive s b = true) /\
  pause s e = Revert PausedError /\
  (forall e' b encAmount encScore, isProvider s (msg_sender e') = true ->
     submitGrantApplication s e' b encAmount encScore = Revert PausedError) /\
  (forall b, calculateAndRequestGrantAmountDecryption keccak256 fheMul s e b =
             Revert PausedError).
Proof.
  intros Hp Ho.
  unfold transferOwnership, addProvider, removeProvider, unpause,
    setCooldownSeconds, openBatch, closeBatch, pause, submitGrantApplication,
    calculateAndRequestGrantAmountDecryption, onlyOwner, onlyProvider,
    whenNotPaused, require.
  rewrite Ho, Z.eqb_refl, Hp. simpl negb. cbv iota.
  repeat refine (conj _ _); eauto.
  - intros a. destruct (negb _); eauto.
  - intros a. destruct (isProvider s a); eauto.
  - intros b. destruct (batchActive s b); simpl; split.
    + intros (? & ? & H). discriminate.
    + discriminate.
    + intros _. reflexivity.
    + intros _. eauto.
  - intros b. destruct (batchActive s b); simpl; split.
    + intros _. reflexivity.
    + intros _. eauto.
    + intros (? & ? & H). discriminate.
    + discriminate.
  - intros e' b a sc H. now rewrite H.
Qed.

End Proofs.

(** ** Further properties of the contract *)

Section Admin.

Variable keccak256 : list Z -> Z.
Variable fheMul : Z -> Z -> Z.
Variable checkSignatures : Z -> list byte -> list byte -> bool.

Ltac split_branches H :=
  repeat match type of H with
  | context [if ?c then _ else _] => let E := fresh "E" in destruct c eqn:E
  | context [match ?c with Some _ => _ | None => _ end] =>
      let E := fresh "E" in destruct c eqn:E
  end.

Ltac open_entry H :=
  unfold exec, transferOwnership, addProvider, removeProvider, pause, unpause,
    setCooldownSeconds, openBatch, closeBatch, submitGrantApplication,
    calculateAndRequestGrantAmountDecryption, myCallback, requestDecryption,
    onlyOwner, onlyProvider, whenNotPaused, require, checked_add in H;
  split_branches H; try discriminate H.

(** Every [onlyOwner] entry point reverts [NotOwner] for any other caller,
    before any other check. *)
Theorem owner_only_operations s e :
  msg_sender e <> owner s ->
  (forall n, transferOwnership s e n = Revert NotOwner) /\
  (forall a, addProvider s e a = Revert NotOwner) /\
  (forall a, removeProvider s e a = Revert NotOwner) /\
  pause s e = Revert NotOwner /\
  unpause s e = Revert NotOwner /\
  (forall c, setCooldownSeconds s e c = Revert NotOwner) /\
  (forall b, openBatch s e b = Revert NotOwner) /\
  (forall b, closeBatch s e b = Revert NotOwner) /\
  (forall b, calculateAndRequestGrantAmountDecryption keccak256 fheMul s e b =
             Revert NotOwner).
Proof.
  intros H. apply Z.eqb_neq in H.
  unfold transferOwnership, addProvider, removeProvider, pause, unpause,
    setCooldownSeconds, openBatch, closeBatch,
    calculateAndRequestGrantAmountDecryption, onlyOwner, require.
  rewrite H. repeat split.
Qed.

(** [addProvider] makes [a] a provider and touches no other address; it emits
    [ProviderAdded] only when [a] was not yet a provider (otherwise the storage
    is unchanged), so a second call changes nothing and emits nothing. *)
Theorem addProvider_idempotent s e a s1 evs1 :
  addProvider s e a = Ok s1 evs1 ->
  isProvider s1 a = true /\
  (forall a', a' <> a -> isProvider s1 a' = isProvider s a') /\
  evs1 = (if isProvider s a then [] else [ProviderAdded a]) /\
  (isProvider s a = true -> s1 = s) /\
  addProvider s1 e a = Ok s1 [].
Proof.
  intros H. unfold addProvider, onlyOwner, require in H.
  destruct (msg_sender e =? owner s) eqn:Eo; [|discriminate].
  destruct (isProvider s a) eqn:Ea; simpl in H; inversion H; subst; clear H.
  - repeat split; auto. unfold addProvider, onlyOwner, require.
    rewrite Eo, Ea. reflexivity.
  - cbn. rewrite upd_same. repeat split; try discriminate.
    + intros a' Hne. now apply upd_other.
    + unfold addProvider, onlyOwner, require. cbn. rewrite Eo, upd_same.
      reflexivity.
Qed.

(** [removeProvider] is the mirror image: [a] is no longer a provider, no
    other address changes, [ProviderRemoved] is emitted only when [a] was a
    provider, and a second call changes nothing and emits nothing. *)
Theorem removeProvider_idempotent s e a s1 evs1 :
  removeProvider s e a = Ok s1 evs1 ->
  isProvider s1 a = false /\
  (forall a', a' <> a -> isProvider s1 a' = isProvider s a') /\
  evs1 = (if isProvider s a then [ProviderRemoved a] else []) /\
  (isProvider s a = false -> s1 = s) /\
  removeProvider s1 e a = Ok s1 [].
Proof.
  intros H. unfold removeProvider, onlyOwner, require in H.
  destruct (msg_sender e =? owner s) eqn:Eo; [|discriminate].
  destruct (isProvider s a) eqn:Ea; inversion H; subst; clear H.
  - cbn. rewrite upd_same. repeat split; try discriminate.
    + intros a' Hne. now apply upd_other.
    + unfold removeProvider, onlyOwner, require. cbn. rewrite Eo, upd_same.
      reflexivity.
  - repeat split; auto. unfold removeProvider, onlyOwner, require.
    rewrite Eo, Ea. reflexivity.
Qed.

(** [pause] succeeds only for the owner on an unpaused contract; [unpause] on
    an unpaused contract reverts [PausedError]; and unpausing right after a
    pause gives back exactly the storage before the pause. *)
Theorem pause_unpause_roundtrip s e s1 evs1 :
  pause s e = Ok s1 evs1 ->
  msg_sender e = owner s /\ paused s = false /\
  unpause s e = Revert PausedError /\
  paused s1 = true /\ evs1 = [Paused (msg_sender e)] /\
  unpause s1 e = Ok s [Unpaused (msg_sender e)].
Proof.
  intros H. unfold pause, onlyOwner, whenNotPaused, require in H.
  destruct (msg_sender e =? owner s) eqn:Eo; [|discriminate].
  destruct (paused s) eqn:Ep; simpl in H; [discriminate|].
  inversion H; subst; clear H.
  apply Z.eqb_eq in Eo.
  repeat split; auto.
  - unfold unpause, onlyOwner, require. rewrite Eo, Z.eqb_refl, Ep. reflexivity.
  - unfold unpause, onlyOwner, require. cbn. rewrite Eo, Z.eqb_refl.
    destruct s; cbn in *; subst; reflexivity.
Qed.

(** Opening a batch requires it to be inactive; once open, opening it again
    reverts [BatchAlreadyActive]; closing it right away succeeds and gives
    every batch back its state from before the opening; closing it a second
    time reverts [BatchNotActive]. *)
Theorem open_close_batch s e b s1 evs1 :
  openBatch s e b = Ok s1 evs1 ->
  batchActive s b = false /\ batchActive s1 b = true /\
  evs1 = [BatchOpened b] /\
  openBatch s1 e b = Revert BatchAlreadyActive /\
  exists s2,
    closeBatch s1 e b = Ok s2 [BatchClosed b] /\
    (forall b', batchActive s2 b' = batchActive s b') /\
    closeBatch s2 e b = Revert BatchNotActive.
Proof.
  intros H. unfold openBatch, onlyOwner, require in H.
  destruct (msg_sender e =? owner s) eqn:Eo; [|discriminate].
  destruct (batchActive s b) eqn:Eb; simpl in H; [discriminate|].
  inversion H; subst; clear H.
  cbn. rewrite upd_same. repeat split; auto.
  - unfold openBatch, onlyOwner, require. cbn. rewrite Eo, upd_same. reflexivity.
  - eexists. split.
    + unfold closeBatch, onlyOwner, require. cbn. rewrite Eo, upd_same. reflexivity.
    + split.
      * intros b'. cbn. unfold upd.
        destruct (Z.eqb_spec b' b) as [->|]; auto.
      * unfold closeBatch, onlyOwner, require. cbn. rewrite Eo, upd_same.
        reflexivity.
Qed.

(** [transferOwnership] hands every owner right to the new owner at once: the
    previous owner (when different) gets [NotOwner] from then on, the new owner
    passes the owner check, and the provider set is left as it was (the new
    owner does not become a provider). *)
Theorem transferOwnership_effect s e n s1 evs1 :
  transferOwnership s e n = Ok s1 evs1 ->
  owner s1 = n /\
  isProvider s1 = isProvider s /\
  evs1 = [OwnershipTransferred (owner s) n] /\
  (n <> msg_sender e -> forall n', transferOwnership s1 e n' = Revert NotOwner) /\
  (forall t c, exists s2 evs2, setCooldownSeconds s1 (mkEnv n t) c = Ok s2 evs2).
Proof.
  intros H. unfold transferOwnership, onlyOwner, require in H.
  destruct (msg_sender e =? owner s) eqn:Eo; [|discriminate].
  inversion H; subst; clear H. cbn.
  repeat split.
  - intros Hne n'. unfold transferOwnership, onlyOwner, require. cbn.
    replace (msg_sender e =? n) with false; [reflexivity|].
    symmetry. apply Z.eqb_neq. congruence.
  - intros t c. unfold setCooldownSeconds, onlyOwner, require. cbn.
    rewrite Z.eqb_refl. eauto.
Qed.

(** [setCooldownSeconds] changes only the duration and keeps the recorded
    submission times, so the new duration applies from the next check on: a
    provider's submission into an active batch of the unpaused contract then
    succeeds iff its last submission time plus the new duration is at most
    [now]. *)
Theorem setCooldownSeconds_next_check s e c s1 evs1 :
  setCooldownSeconds s e c = Ok s1 evs1 ->
  evs1 = [CooldownSecondsSet (cooldownSeconds s) c] /\
  cooldownSeconds s1 = c /\
  lastSubmissionTime s1 = lastSubmissionTime s /\
  lastDecryptionRequestTime s1 = lastDecryptionRequestTime s /\
  (forall p now b encAmount encScore,
     isProvider s p = true -> paused s = false -> batchActive s b = true ->
     now < uint256_max ->
     ((exists s2 evs2,
         submitGrantApplication s1 (mkEnv p now) b encAmount encScore = Ok s2 evs2) <->
      lastSubmissionTime s p + c <= now)).
Proof.
  intros H.
  unfold setCooldownSeconds, onlyOwner, require in H.
  destruct (msg_sender e =? owner s) eqn:Eo; [|discriminate].
  inversion H; subst; clear H. cbn.
  refine (conj eq_refl (conj eq_refl (conj eq_refl (conj eq_refl _)))).
  intros p now b encAmount encScore Hp Hpa Hb Hn. split.
  - intros (s2 & evs2 & H).
    unfold submitGrantApplication, onlyProvider, whenNotPaused, require,
      checked_add in H; cbn in H.
    rewrite Hp, Hpa, Hb in H. cbn in H.
    destruct (_ <? uint256_max) eqn:E1; [|discriminate].
    destruct (now <? _) eqn:E2; [discriminate|].
    apply Z.ltb_ge in E2. exact E2.
  - intros Hle.
    unfold submitGrantApplication, onlyProvider, whenNotPaused, require,
      checked_add; cbn.
    rewrite Hp, Hpa, Hb. cbn.
    replace (_ <? uint256_max) with true by (symmetry; apply Z.ltb_lt; lia).
    replace (now <? _) with false by (symmetry; apply Z.ltb_ge; lia).
    eauto.
Qed.

(** The decryption-request cooldown: for the owner of the unpaused contract,
    [calculateAndRequestGrantAmountDecryption] reverts [CooldownActive] when
    [now < lastDecryptionRequestTime + cooldownSeconds], whatever the batch;
    and a submission never changes the decryption-request times, nor a
    request the submission times. *)
Theorem cooldown_kinds_independent s :
  (forall e b,
     msg_sender e = owner s -> paused s = false ->
     block_timestamp e < lastDecryptionRequestTime s (msg_sender e) + cooldownSeconds s
       < uint256_max ->
     calculateAndRequestGrantAmountDecryption keccak256 fheMul s e b = Revert CooldownActive) /\
  (forall e b,
     msg_sender e = owner s -> paused s = false ->
     uint256_max <= lastDecryptionRequestTime s (msg_sender e) + cooldownSeconds s ->
     calculateAndRequestGrantAmountDecryption keccak256 fheMul s e b = Revert (Panic 17)) /\
  (forall e' b' a sc s' evs,
     submitGrantApplication s e' b' a sc = Ok s' evs ->
     lastDecryptionRequestTime s' = lastDecryptionRequestTime s) /\
  (forall e' b' s' evs,
     calculateAndRequestGrantAmountDecryption keccak256 fheMul s e' b' = Ok s' evs ->
     lastSubmissionTime s' = lastSubmissionTime s).
Proof.
  repeat refine (conj _ _).
  - intros e b Ho Hp [H1 H2].
    unfold calculateAndRequestGrantAmountDecryption, onlyOwner, whenNotPaused,
      require, checked_add.
    rewrite Ho, Z.eqb_refl, Hp. cbn [negb]. rewrite <- Ho.
    replace (_ <? uint256_max) with true by (symmetry; apply Z.ltb_lt; lia).
    replace (block_timestamp e <? _) with true by (symmetry; apply Z.ltb_lt; lia).
    reflexivity.
  - intros e b Ho Hp H.
    unfold calculateAndRequestGrantAmountDecryption, onlyOwner, whenNotPaused,
      require, checked_add.
    rewrite Ho, Z.eqb_refl, Hp. cbn [negb]. rewrite <- Ho.
    replace (_ <? uint256_max) with false by (symmetry; apply Z.ltb_ge; lia).
    reflexivity.
  - intros e' b' a sc s' evs H.
    change (submitGrantApplication s e' b' a sc)
      with (exec keccak256 fheMul checkSignatures s e' (CSubmitGrantApplication b' a sc))
      in H.
    open_entry H. inversion H; subst. reflexivity.
  - intros e' b' s' evs H.
    change (calculateAndRequestGrantAmountDecryption keccak256 fheMul s e' b')
      with (exec keccak256 fheMul checkSignatures s e'
              (CCalculateAndRequestGrantAmountDecryption b')) in H.
    open_entry H. inversion H; subst. reflexivity.
Qed.

(** The last steps of [myCallback], once the context is unprocessed and the
    hash matches: a rejected proof reverts [DecryptionFailed]; an accepted
    proof with fewer than 32 cleartext bytes reverts in [abi.decode] (the
    [catch] does not cover the success block); otherwise the context is marked
    processed and the event carries the first 32 bytes read big-endian. *)
Theorem callback_final_steps s e r cleartexts proof :
  dc_processed (decryptionContexts s r) = false ->
  recomputed_hash keccak256 s r = dc_stateHash (decryptionContexts s r) ->
  (checkSignatures r cleartexts proof = false ->
   myCallback keccak256 checkSignatures s e r cleartexts proof = Revert DecryptionFailed) /\
  (checkSignatures r cleartexts proof = true -> (length cleartexts < 32)%nat ->
   myCallback keccak256 checkSignatures s e r cleartexts proof = Revert DecodeRevert) /\
  (checkSignatures r cleartexts proof = true -> (32 <= length cleartexts)%nat ->
   myCallback keccak256 checkSignatures s e r cleartexts proof =
   Ok (set_decryptionContext s r
         (mkDecryptionContext (dc_batchId (decryptionContexts s r))
            (dc_stateHash (decryptionContexts s r)) true))
      [DecryptionCompleted r (dc_batchId (decryptionContexts s r)) 0 0
         (be_bytes (firstn 32 cleartexts))]).
Proof.
  intros Hp Hh. unfold recomputed_hash in Hh.
  unfold myCallback. rewrite Hp, Hh, Z.eqb_refl. cbn [negb].
  unfold abi_decode_uint256.
  repeat split.
  - intros Hc. now rewrite Hc.
  - intros Hc Hl. rewrite Hc.
    replace (length cleartexts <? 32)%nat with true
      by (symmetry; apply Nat.ltb_lt; exact Hl).
    reflexivity.
  - intros Hc Hl. rewrite Hc.
    replace (length cleartexts <? 32)%nat with false
      by (symmetry; apply Nat.ltb_ge; exact Hl).
    reflexivity.
Qed.

(** No call by anyone other than the owner changes the owner, the provider
    set, the pause flag, the cooldown or any batch's open state. *)
Theorem non_owner_calls_keep_admin_state s e c s' evs :
  msg_sender e <> owner s ->
  exec keccak256 fheMul checkSignatures s e c = Ok s' evs ->
  owner s' = owner s /\ isProvider s' = isProvider s /\ paused s' = paused s /\
  cooldownSeconds s' = cooldownSeconds s /\ batchActive s' = batchActive s.
Proof.
  intros Hne H. apply Z.eqb_neq in Hne.
  destruct c; open_entry H; try congruence;
    inversion H; subst; repeat split.
Qed.

(** In every reachable state each batch's grant handle is either the zero
    handle (never derived since the last submission) or the product of the
    batch's current amount and score handles. *)
Theorem grant_handle_invariant s :
  reachable keccak256 fheMul checkSignatures s ->
  forall b, let app := applications s b in
  encryptedGrantAmount app = 0 \/
  encryptedGrantAmount app = fheMul (encryptedAmount app) (encryptedScore app).
Proof.
  induction 1 as [d t|s s' _ IH Hs]; intros b.
  - left. reflexivity.
  - destruct Hs as [s e c s' evs H].
    destruct c; open_entry H; inversion H; subst; clear H; cbn in *;
      try apply IH; unfold upd;
      match goal with |- context [Z.eqb b ?k] =>
        destruct (Z.eqb b k); [cbn; auto|apply IH] end.
Qed.

(** [batchTotalEncryptedAmount] and [batchTotalEncryptedScore] are never
    written: in every reachable state they read 0 for every batch. *)
Theorem batch_totals_always_zero s :
  reachable keccak256 fheMul checkSignatures s ->
  forall b, batchTotalEncryptedAmount s b = 0 /\ batchTotalEncryptedScore s b = 0.
Proof.
  induction 1 as [d t|s s' _ IH Hs]; intros b.
  - split; reflexivity.
  - destruct Hs as [s e c s' evs H].
    destruct c; open_entry H; inversion H; subst; clear H; cbn; apply IH.
Qed.

Hypothesis keccak256_nonzero : forall l, keccak256 l <> 0.

(** In a reachable state a decryption request stores its context under an id
    that held no context yet, leaves every other context as it was, and moves
    the request counter on by one: a request never overwrites a pending or
    finalized one. *)
Theorem request_never_overwrites s e b s' evs :
  reachable keccak256 fheMul checkSignatures s ->
  calculateAndRequestGrantAmountDecryption keccak256 fheMul s e b = Ok s' evs ->
  decryptionContexts s (counterRequest s) = default_context /\
  (exists h, decryptionContexts s' (counterRequest s) = mkDecryptionContext b h false /\
             evs = [DecryptionRequested (counterRequest s) b h]) /\
  counterRequest s' = counterRequest s + 1 /\
  (forall r, r <> counterRequest s -> decryptionContexts s' r = decryptionContexts s r).
Proof.
  intros Hr H.
  pose proof (reachable_fresh_contexts keccak256 fheMul checkSignatures
                keccak256_nonzero s Hr) as Hf.
  change (calculateAndRequestGrantAmountDecryption keccak256 fheMul s e b)
    with (exec keccak256 fheMul checkSignatures s e
            (CCalculateAndRequestGrantAmountDecryption b)) in H.
  open_entry H. inversion H; subst; clear H. cbn.
  refine (conj _ (conj _ (conj _ _))).
  - apply Hf. lia.
  - eexists. split; [apply upd_same|reflexivity].
  - reflexivity.
  - intros r Hne. now apply upd_other.
Qed.

End Admin.

(** ** Further properties of the front end *)

Module FrontendProofs.

Import Frontend Stdlib.Strings.String.
Local Open Scope string_scope.

Lemma includes_empty s : includes s "" = true.
Proof. destruct s; reflexivity. Qed.

Lemma filter_all_true {A} (f : A -> bool) (l : list A) :
  (forall x, In x l -> f x = true) -> List.filter f l = l.
Proof.
  induction l as [|x l IH]; intros H; [reflexivity|].
  cbn. rewrite (H x (or_introl eq_refl)), IH; [reflexivity|].
  intros y Hy. apply H. now right.
Qed.

(** With an empty search box and the category filter at "all", every loaded
    project is listed, in order. *)
Theorem filter_defaults_show_all toLowerCase projects :
  toLowerCase "" = "" ->
  filteredProjects toLowerCase "" "all" projects = projects.
Proof.
  intros Hlc. unfold filteredProjects. rewrite Hlc.
  apply filter_all_true. intros p _. now rewrite !includes_empty.
Qed.

(** Every listed project is a loaded project that matches the search term in
    its name or description and, unless the filter is "all", has exactly the
    selected category. *)
Theorem filtered_projects_match toLowerCase searchTerm filterCategory projects p :
  In p (filteredProjects toLowerCase searchTerm filterCategory projects) ->
  In p projects /\
  (includes (toLowerCase (name p)) (toLowerCase searchTerm) ||
   includes (toLowerCase (description p)) (toLowerCase searchTerm)) = true /\
  (filterCategory <> "all" -> category p = filterCategory).
Proof.
  unfold filteredProjects. intros H. apply filter_In in H as [Hin Hp].
  apply andb_true_iff in Hp as [Hs Hc].
  split; [exact Hin|split; [exact Hs|]].
  intros Hne. apply orb_true_iff in Hc as [Hc|Hc].
  - apply String.eqb_eq in Hc. contradiction.
  - now apply String.eqb_eq in Hc.
Qed.

Lemma distinct_fold xs acc :
  List.NoDup acc ->
  List.NoDup (fold_left set_insert xs acc) /\
  (forall c, In c (fold_left set_insert xs acc) <-> In c acc \/ In c xs).
Proof.
  revert acc. induction xs as [|x xs IH]; intros acc Hnd.
  - cbn. split; [exact Hnd|]. intros c. split; [auto|]. intros [H|[]]. exact H.
  - cbn. assert (Hnd' : List.NoDup (set_insert acc x) /\
                        forall c, In c (set_insert acc x) <-> In c acc \/ c = x).
    { unfold set_insert. destruct (existsb (String.eqb x) acc) eqn:E.
      - split; [exact Hnd|]. intros c. split; [auto|].
        intros [H| ->]; [exact H|].
        apply existsb_exists in E as (y & Hy & Hxy).
        apply String.eqb_eq in Hxy. subst. exact Hy.
      - split.
        + apply List.NoDup_app; [exact Hnd|constructor; [intros []|constructor]|].
          intros y Hy [Hyx|[]]. subst y.
          assert (existsb (String.eqb x) acc = true)
            by (apply existsb_exists; exists x; split; [exact Hy|apply String.eqb_refl]).
          congruence.
        + intros c. rewrite in_app_iff. cbn. intuition. }
    destruct Hnd' as [Hnd' Hin'].
    destruct (IH _ Hnd') as [H1 H2]. split; [exact H1|].
    intros c. rewrite H2, Hin'. cbn. intuition.
Qed.

(** The category drop-down lists each category of the loaded projects exactly
    once, and nothing else. *)
Theorem categories_distinct projects :
  List.NoDup (categories projects) /\
  (forall c, In c (categories projects) <-> exists p, In p projects /\ category p = c).
Proof.
  unfold categories, distinct.
  destruct (distinct_fold (map category projects) [] (List.NoDup_nil _)) as [H1 H2].
  split; [exact H1|]. intros c. rewrite H2, in_map_iff.
  split.
  - intros [[]|(p & Hc & Hp)]. eauto.
  - intros (p & Hp & Hc). right. eauto.
Qed.

(** The three counters shown on the page add up to the number of loaded
    projects whose status is one of "approved", "pending" and "rejected"; so
    they never exceed the total, and equal it when every status is one of the
    three. *)
Theorem status_counts_sum projects :
  (approvedCount projects + pendingCount projects + rejectedCount projects =
   List.length (List.filter (fun p => String.eqb (status p) "approved" ||
                            String.eqb (status p) "pending" ||
                            String.eqb (status p) "rejected") projects))%nat /\
  (approvedCount projects + pendingCount projects + rejectedCount projects <=
   List.length projects)%nat.
Proof.
  unfold approvedCount, pendingCount, rejectedCount, countStatus.
  assert (Heq : (List.length (List.filter (fun p => String.eqb (status p) "approved") projects) +
     List.length (List.filter (fun p => String.eqb (status p) "pending") projects) +
     List.length (List.filter (fun p => String.eqb (status p) "rejected") projects) =
     List.length (List.filter (fun p => String.eqb (status p) "approved" ||
                              String.eqb (status p) "pending" ||
                              String.eqb (status p) "rejected") projects))%nat).
  { induction projects as [|p ps IH]; [reflexivity|]. simpl.
    destruct (String.eqb_spec (status p) "approved") as [Ha|Ha];
    destruct (String.eqb_spec (status p) "pending") as [Hp|Hp];
    destruct (String.eqb_spec (status p) "rejected") as [Hr|Hr];
    try congruence; simpl; lia. }
  split; [exact Heq|]. rewrite Heq. apply filter_length_le.
Qed.

End FrontendProofs.

(** ** Runs, witnesses and counterexamples *)

Lemma keccak256_model_nonzero : forall l, keccak256_model l <> 0.
Proof. intros l. discriminate. Qed.

Lemma keccak256_model_inj :
  forall l1 l2, keccak256_model l1 = keccak256_model l2 -> l1 = l2.
Proof. intros l1 l2 H. injection H as H. exact (inj encode _ _ H). Qed.

Lemma reachable_run s e c :
  reachable keccak256_model fheMul_model checkSignatures_model s ->
  succeeds (exec_model s e c) = true ->
  reachable keccak256_model fheMul_model checkSignatures_model (run s e c).
Proof.
  intros Hr Hok. unfold run, apply_tx. unfold exec_model in Hok.
  destruct (exec _ _ _ s e c) as [s' evs|err] eqn:E; [|discriminate].
  eapply reachable_step; [exact Hr|]. econstructor. exact E.
Qed.

Lemma demo_s3_reachable :
  reachable keccak256_model fheMul_model checkSignatures_model demo_s3.
Proof.
  unfold demo_s3. apply reachable_run; [|vm_compute; reflexivity].
  unfold demo_s2. apply reachable_run; [|vm_compute; reflexivity].
  unfold demo_s1. apply reachable_run; [|vm_compute; reflexivity].
  apply reachable_deploy.
Qed.

Lemma demo_s4_reachable :
  reachable keccak256_model fheMul_model checkSignatures_model demo_s4.
Proof.
  unfold demo_s4. apply reachable_run; [exact demo_s3_reachable|].
  vm_compute. reflexivity.
Qed.

(** C1: the answered request 0 of the concrete run. *)
Lemma exactly_once_finalization_witness :
  dc_processed (decryptionContexts demo_s4 0) = true /\
  exec_model demo_s4 (mkEnv 9 300) (CMyCallback 0 cleartext42 []) = Revert ReplayAttempt.
Proof.
  destruct (exactly_once_finalization keccak256_model fheMul_model
              checkSignatures_model keccak256_model_nonzero demo_s4 0
              demo_s4_reachable ltac:(vm_compute; reflexivity)
              demo_s4 (steps_refl _ _ _ _)) as [H1 H2].
  split; [exact H1|apply H2].
Defined.

(** C2: request 0 is outstanding for batch 7 when provider 1 resubmits the
    same handles (11, 22) to batch 7; the owner re-derives batch 7 before the
    callback for request 0 arrives, which then passes the hash check and
    succeeds instead of reverting [StateMismatch]. *)
Lemma state_binding_counterexample :
  dc_batchId (decryptionContexts demo_s3 0) = 7 /\
  dc_processed (decryptionContexts demo_s3 0) = false /\
  dc_stateHash (decryptionContexts demo_s3 0) =
    hashCiphertexts keccak256_model demo_s3
      [toBytes32 (encryptedGrantAmount (applications demo_s3 7))] /\
  succeeds (exec_model demo_s3 (mkEnv 1 200) (CSubmitGrantApplication 7 11 22)) = true /\
  encryptedGrantAmount (applications demo_s7 7) = 0 /\
  succeeds (exec_model demo_s7 (mkEnv 1 200) (CCalculateAndRequestGrantAmountDecryption 7)) = true /\
  dc_processed (decryptionContexts demo_s8 0) = false /\
  succeeds (exec_model demo_s8 (mkEnv 5 300) (CMyCallback 0 cleartext42 [])) = true.
Proof. vm_compute. repeat split. Qed.

(** C2: batch 7 is resubmitted with (3, 4) and then closed; the callback for
    request 0 reverts [StateMismatch]. *)
Lemma state_binding_until_rederive_witness :
  exec_model demo_s9 (mkEnv 5 300) (CMyCallback 0 cleartext42 []) =
  Revert StateMismatch.
Proof.
  apply (state_binding_until_rederive keccak256_model fheMul_model
           checkSignatures_model keccak256_model_nonzero demo_s3 (mkEnv 1 200)
           7 3 4 demo_s5 [GrantSubmitted 1 7 3 4] 0 (fheMul_model 11 22) demo_s9
           keccak256_model_inj demo_s3_reachable);
    try (vm_compute; reflexivity).
  apply (swr_cons _ _ _ _ demo_s5 (mkEnv 1 250) (CCloseBatch 7) demo_s9 [BatchClosed 7]);
    [vm_compute; reflexivity|reflexivity|apply swr_refl].
Defined.

(** C3: right after deployment no request was ever issued, yet the callback
    for id 0 reverts [StateMismatch]; the contract declares no
    [UnknownRequest] error. *)
Lemma unknown_request_counterexample :
  counterRequest demo_s0 = 0 /\
  decryptionContexts demo_s0 0 = default_context /\
  exec_model demo_s0 (mkEnv 5 0) (CMyCallback 0 [] []) = Revert StateMismatch.
Proof. vm_compute. repeat split. Qed.

Lemma unknown_request_state_mismatch_witness :
  decryptionContexts demo_s3 1 = default_context /\
  exec_model demo_s3 (mkEnv 5 300) (CMyCallback 1 cleartext42 []) = Revert StateMismatch.
Proof.
  destruct (unknown_request_state_mismatch keccak256_model fheMul_model
              checkSignatures_model keccak256_model_nonzero demo_s3 1
              demo_s3_reachable ltac:(apply Z.leb_le; vm_compute; reflexivity))
    as [H1 H2].
  split; [exact H1|apply H2].
Defined.

(** C4: the owner derives and requests for batch 7 at t = 100. *)
Lemma request_postcondition_witness :
  exists s',
    calculateAndRequestGrantAmountDecryption keccak256_model fheMul_model
      demo_s2 (mkEnv 1 100) 7 =
    Ok s' [DecryptionRequested (counterRequest demo_s2) 7
             (keccak256_model (abi_encode_cts [toBytes32 (fheMul_model 11 22)] 1000))] /\
    decryptionContexts s' (counterRequest demo_s2) =
    mkDecryptionContext 7
      (keccak256_model (abi_encode_cts [toBytes32 (fheMul_model 11 22)] 1000)) false.
Proof.
  destruct (request_postcondition keccak256_model fheMul_model demo_s2 (mkEnv 1 100) 7
              ltac:(vm_compute; reflexivity) ltac:(vm_compute; reflexivity)
              ltac:(apply Z.leb_le; vm_compute; reflexivity)
              ltac:(vm_compute; reflexivity)) as [_ H].
  destruct (H ltac:(vm_compute; reflexivity) ltac:(vm_compute; reflexivity))
    as (s' & H1 & _ & H3 & _).
  exists s'. split; [exact H1|exact H3].
Defined.

(** C5 (code bug): after a submission at t = 100 the owner sets the cooldown
    to [2^256 - 1]; at t = 200 the cooldown has not elapsed, yet the
    submission reverts with the overflow panic [Panic(0x11)] of the checked
    [lastSubmissionTime + cooldownSeconds], not with [CooldownActive]. *)
Lemma submit_cooldown_overflow_panic :
  isProvider demo_s6 1 = true /\
  paused demo_s6 = false /\
  batchActive demo_s6 7 = true /\
  200 < lastSubmissionTime demo_s6 1 + cooldownSeconds demo_s6 /\
  submitGrantApplication demo_s6 (mkEnv 1 200) 7 3 4 = Revert (Panic 17).
Proof. vm_compute. repeat split. Qed.

Lemma submit_outcomes_witness :
  exists s' evs, submitGrantApplication demo_s2 (mkEnv 1 200) 7 3 4 = Ok s' evs.
Proof.
  pose proof (submit_outcomes keccak256_model fheMul_model checkSignatures_model
                demo_s2 (mkEnv 1 200) 7 3 4 ltac:(vm_compute; reflexivity)) as H.
  cbv zeta in H. destruct H as [[_ Hif] _]. apply Hif.
  split; [vm_compute; reflexivity|].
  split; [vm_compute; reflexivity|].
  split; [vm_compute; reflexivity|].
  apply Z.leb_le; vm_compute; reflexivity.
Defined.

(** C6: the provider 1 of the concrete run has never submitted; at t = 0 its
    first submission into the open batch 7 reverts [CooldownActive]. *)
Lemma cooldown_scenario_counterexample :
  isProvider demo_s1 1 = true /\
  paused demo_s1 = false /\
  batchActive demo_s1 7 = true /\
  cooldownSeconds demo_s1 = 60 /\
  lastSubmissionTime demo_s1 1 = 0 /\
  submitGrantApplication demo_s1 (mkEnv 1 0) 7 11 22 = Revert CooldownActive.
Proof. vm_compute. repeat split. Qed.

Lemma cooldown_scenario_witness :
  submitGrantApplication demo_s1 (mkEnv 1 0) 7 11 22 = Revert CooldownActive /\
  exists s1 evs1,
    submitGrantApplication demo_s1 (mkEnv 1 100) 7 11 22 = Ok s1 evs1 /\
    submitGrantApplication s1 (mkEnv 1 (100 + 30)) 7 11 22 = Revert CooldownActive /\
    exists s2 evs2, submitGrantApplication s1 (mkEnv 1 (100 + 61)) 7 11 22 = Ok s2 evs2.
Proof.
  destruct (cooldown_scenario demo_s1 1 7 11 22
              ltac:(vm_compute; reflexivity) ltac:(vm_compute; reflexivity)
              ltac:(vm_compute; reflexivity) ltac:(vm_compute; reflexivity)
              ltac:(vm_compute; reflexivity)) as [H1 H2].
  split.
  - apply H1. vm_compute. reflexivity.
  - apply H2; vm_compute; [discriminate|reflexivity].
Defined.

(** C7: the processed request 0 of [demo_s4], and the stale request 0 of
    [demo_s5]. *)
Lemma callback_check_order_witness :
  myCallback keccak256_model checkSignatures_model demo_s4 (mkEnv 5 300) 0 [] [] =
    Revert ReplayAttempt /\
  myCallback keccak256_model checkSignatures_model demo_s5 (mkEnv 5 300) 0 [] [] =
    Revert StateMismatch.
Proof.
  split.
  - apply (proj1 (callback_check_order keccak256_model demo_s4 (mkEnv 5 300) 0 [] []));
      vm_compute; reflexivity.
  - apply (proj2 (callback_check_order keccak256_model demo_s5 (mkEnv 5 300) 0 [] []));
      vm_compute; [reflexivity|discriminate].
Defined.

(** C8: the owner of the paused contract cannot pause it again. *)
Lemma owner_ops_while_paused_counterexample :
  paused demo_paused = true /\
  owner demo_paused = 1 /\
  pause demo_paused (mkEnv 1 200) = Revert PausedError.
Proof. vm_compute. repeat split. Qed.

Lemma owner_ops_while_paused_witness :
  pause demo_paused (mkEnv 1 200) = Revert PausedError /\
  exists s' evs, unpause demo_paused (mkEnv 1 200) = Ok s' evs.
Proof.
  destruct (owner_ops_while_paused keccak256_model fheMul_model demo_paused (mkEnv 1 200)
              ltac:(vm_compute; reflexivity) ltac:(vm_compute; reflexivity))
    as (_ & _ & _ & Hun & _ & _ & _ & Hp & _).
  split; [exact Hp|exact Hun].
Defined.

(** C10: the answer to request 0 of the concrete run. *)
Lemma callback_frame_witness :
  owner demo_s4 = owner demo_s3 /\
  applications demo_s4 = applications demo_s3 /\
  decryptionContexts demo_s4 0 =
    mkDecryptionContext (dc_batchId (decryptionContexts demo_s3 0))
      (dc_stateHash (decryptionContexts demo_s3 0)) true.
Proof.
  destruct (callback_frame keccak256_model fheMul_model checkSignatures_model
              demo_s3 (mkEnv 5 200) 0 cleartext42 [] demo_s4
              [DecryptionCompleted 0 7 0 0 42]
              ltac:(vm_compute; reflexivity))
    as (H1 & _ & _ & _ & _ & H6 & _ & _ & _ & _ & _ & _ & _ & H14 & _).
  split; [exact H1|split; [exact H6|exact H14]].
Defined.

(** ** Witnesses of the further properties *)

Lemma demo_s2_reachable :
  reachable keccak256_model fheMul_model checkSignatures_model demo_s2.
Proof.
  unfold demo_s2. apply reachable_run; [|vm_compute; reflexivity].
  unfold demo_s1. apply reachable_run; [|vm_compute; reflexivity].
  apply reachable_deploy.
Qed.

(** Address 5 is not the owner: pausing and requesting revert [NotOwner]. *)
Lemma owner_only_operations_witness :
  pause demo_s0 (mkEnv 5 100) = Revert NotOwner /\
  calculateAndRequestGrantAmountDecryption keccak256_model fheMul_model
    demo_s2 (mkEnv 5 100) 7 = Revert NotOwner.
Proof.
  split.
  - destruct (owner_only_operations keccak256_model fheMul_model demo_s0 (mkEnv 5 100)
                ltac:(vm_compute; congruence)) as (_ & _ & _ & H & _).
    exact H.
  - destruct (owner_only_operations keccak256_model fheMul_model demo_s2 (mkEnv 5 100)
                ltac:(vm_compute; congruence)) as (_ & _ & _ & _ & _ & _ & _ & _ & H).
    apply H.
Defined.

(** The owner adds provider 5; adding it again changes nothing. *)
Lemma addProvider_idempotent_witness :
  isProvider (run demo_s0 (mkEnv 1 100) (CAddProvider 5)) 5 = true /\
  addProvider (run demo_s0 (mkEnv 1 100) (CAddProvider 5)) (mkEnv 1 100) 5 =
  Ok (run demo_s0 (mkEnv 1 100) (CAddProvider 5)) [].
Proof.
  destruct (addProvider_idempotent demo_s0 (mkEnv 1 100) 5
              (run demo_s0 (mkEnv 1 100) (CAddProvider 5)) [ProviderAdded 5]
              ltac:(vm_compute; reflexivity)) as (H1 & _ & _ & _ & H5).
  split; [exact H1|exact H5].
Defined.

(** The owner removes itself as provider; removing again changes nothing. *)
Lemma removeProvider_idempotent_witness :
  isProvider (run demo_s0 (mkEnv 1 100) (CRemoveProvider 1)) 1 = false /\
  removeProvider (run demo_s0 (mkEnv 1 100) (CRemoveProvider 1)) (mkEnv 1 100) 1 =
  Ok (run demo_s0 (mkEnv 1 100) (CRemoveProvider 1)) [].
Proof.
  destruct (removeProvider_idempotent demo_s0 (mkEnv 1 100) 1
              (run demo_s0 (mkEnv 1 100) (CRemoveProvider 1)) [ProviderRemoved 1]
              ltac:(vm_compute; reflexivity)) as (H1 & _ & _ & _ & H5).
  split; [exact H1|exact H5].
Defined.

(** Pausing the fresh contract and unpausing gives the fresh storage back. *)
Lemma pause_unpause_roundtrip_witness :
  unpause demo_paused (mkEnv 1 100) = Ok demo_s0 [Unpaused 1].
Proof.
  destruct (pause_unpause_roundtrip demo_s0 (mkEnv 1 100) demo_paused [Paused 1]
              ltac:(vm_compute; reflexivity)) as (_ & _ & _ & _ & _ & H).
  exact H.
Defined.

(** Batch 7, once opened, cannot be opened again, and closes. *)
Lemma open_close_batch_witness :
  openBatch demo_s1 (mkEnv 1 100) 7 = Revert BatchAlreadyActive /\
  exists s2, closeBatch demo_s1 (mkEnv 1 100) 7 = Ok s2 [BatchClosed 7].
Proof.
  destruct (open_close_batch demo_s0 (mkEnv 1 100) 7 demo_s1 [BatchOpened 7]
              ltac:(vm_compute; reflexivity)) as (_ & _ & _ & H4 & s2 & H5 & _).
  split; [exact H4|exists s2; exact H5].
Defined.

(** After handing ownership from 1 to 2, address 1 can no longer transfer it. *)
Lemma transferOwnership_effect_witness :
  owner (run demo_s0 (mkEnv 1 100) (CTransferOwnership 2)) = 2 /\
  transferOwnership (run demo_s0 (mkEnv 1 100) (CTransferOwnership 2)) (mkEnv 1 100) 1 =
  Revert NotOwner.
Proof.
  destruct (transferOwnership_effect demo_s0 (mkEnv 1 100) 2
              (run demo_s0 (mkEnv 1 100) (CTransferOwnership 2))
              [OwnershipTransferred 1 2] ltac:(vm_compute; reflexivity))
    as (H1 & _ & _ & H4 & _).
  split; [exact H1|apply H4; vm_compute; congruence].
Defined.

(** Provider 1 submitted at t = 100; with the cooldown lowered to 30 it may
    submit again at t = 130. *)
Lemma setCooldownSeconds_next_check_witness :
  cooldownSeconds (run demo_s2 (mkEnv 1 110) (CSetCooldownSeconds 30)) = 30 /\
  exists s2 evs2,
    submitGrantApplication (run demo_s2 (mkEnv 1 110) (CSetCooldownSeconds 30))
      (mkEnv 1 130) 7 5 6 = Ok s2 evs2.
Proof.
  destruct (setCooldownSeconds_next_check demo_s2 (mkEnv 1 110) 30
              (run demo_s2 (mkEnv 1 110) (CSetCooldownSeconds 30))
              [CooldownSecondsSet 60 30] ltac:(vm_compute; reflexivity))
    as (_ & H2 & _ & _ & H).
  split; [exact H2|].
  apply (H 1 130 7 5 6 ltac:(vm_compute; reflexivity) ltac:(vm_compute; reflexivity)
           ltac:(vm_compute; reflexivity) ltac:(vm_compute; reflexivity)).
  vm_compute. congruence.
Defined.

(** The owner requested at t = 100 with a 60 s cooldown: a second request at
    t = 120 reverts [CooldownActive]; with the cooldown raised to
    [2^256 - 2] the same request overflows instead. *)
Lemma cooldown_kinds_independent_witness :
  calculateAndRequestGrantAmountDecryption keccak256_model fheMul_model
    demo_s3 (mkEnv 1 120) 7 = Revert CooldownActive /\
  calculateAndRequestGrantAmountDecryption keccak256_model fheMul_model
    (run demo_s3 (mkEnv 1 150) (CSetCooldownSeconds (uint256_max - 2)))
    (mkEnv 1 200) 7 = Revert (Panic 17).
Proof.
  split.
  - destruct (cooldown_kinds_independent keccak256_model fheMul_model demo_s3)
      as (H & _ & _ & _).
    apply H; [vm_compute; reflexivity|vm_compute; reflexivity|].
    split; apply Z.ltb_lt; vm_compute; reflexivity.
  - destruct (cooldown_kinds_independent keccak256_model fheMul_model
                (run demo_s3 (mkEnv 1 150) (CSetCooldownSeconds (uint256_max - 2))))
      as (_ & H & _ & _).
    apply H; [vm_compute; reflexivity|vm_compute; reflexivity|].
    apply Z.leb_le; vm_compute; reflexivity.
Defined.

(** The oracle's 32-byte answer 42 for request 0 finalises batch 7. *)
Lemma callback_final_steps_witness :
  exists s',
    myCallback keccak256_model checkSignatures_model demo_s3 (mkEnv 5 200) 0
      cleartext42 [] = Ok s' [DecryptionCompleted 0 7 0 0 42].
Proof.
  destruct (callback_final_steps keccak256_model checkSignatures_model demo_s3
              (mkEnv 5 200) 0 cleartext42 []
              ltac:(vm_compute; reflexivity) ltac:(vm_compute; reflexivity))
    as (_ & _ & H).
  eexists. rewrite (H eq_refl ltac:(apply Nat.leb_le; vm_compute; reflexivity)).
  vm_compute. reflexivity.
Defined.

(** The callback sent by address 5 leaves the administrative state alone. *)
Lemma non_owner_calls_keep_admin_state_witness :
  owner demo_s4 = owner demo_s3 /\ paused demo_s4 = paused demo_s3 /\
  batchActive demo_s4 = batchActive demo_s3.
Proof.
  destruct (non_owner_calls_keep_admin_state keccak256_model fheMul_model
              checkSignatures_model demo_s3 (mkEnv 5 200) (CMyCallback 0 cleartext42 [])
              demo_s4 [DecryptionCompleted 0 7 0 0 42]
              ltac:(vm_compute; congruence) ltac:(vm_compute; reflexivity))
    as (H1 & _ & H3 & _ & H5).
  split; [exact H1|split; [exact H3|exact H5]].
Defined.

Lemma grant_handle_invariant_witness :
  encryptedGrantAmount (applications demo_s3 7) = 0 \/
  encryptedGrantAmount (applications demo_s3 7) =
  fheMul_model (encryptedAmount (applications demo_s3 7))
               (encryptedScore (applications demo_s3 7)).
Proof.
  exact (grant_handle_invariant keccak256_model fheMul_model checkSignatures_model
           demo_s3 demo_s3_reachable 7).
Defined.

Lemma batch_totals_always_zero_witness :
  batchTotalEncryptedAmount demo_s4 7 = 0 /\ batchTotalEncryptedScore demo_s4 7 = 0.
Proof.
  exact (batch_totals_always_zero keccak256_model fheMul_model checkSignatures_model
           demo_s4 demo_s4_reachable 7).
Defined.

(** The owner's request for batch 7 takes the unused id 0 and moves the
    counter to 1. *)
Lemma request_never_overwrites_witness :
  decryptionContexts demo_s2 0 = default_context /\
  (exists h, decryptionContexts demo_s3 0 = mkDecryptionContext 7 h false) /\
  counterRequest demo_s3 = counterRequest demo_s2 + 1.
Proof.
  destruct (request_never_overwrites keccak256_model fheMul_model checkSignatures_model
              keccak256_model_nonzero demo_s2 (mkEnv 1 100) 7 demo_s3
              [DecryptionRequested 0 7
                 (keccak256_model (abi_encode_cts [toBytes32 (fheMul_model 11 22)] 1000))]
              demo_s2_reachable ltac:(vm_compute; reflexivity))
    as (H1 & (h & H2 & _) & H3 & _).
  split; [exact H1|split; [exists h; exact H2|exact H3]].
Defined.

Module FrontendWitnesses.

Import Stdlib.Strings.String Frontend FrontendDemo.
Local Open Scope string_scope.

Lemma filter_defaults_show_all_witness :
  filteredProjects toLowerCase_ascii "" "all" demo_projects = demo_projects.
Proof.
  apply (FrontendProofs.filter_defaults_show_all toLowerCase_ascii demo_projects).
  reflexivity.
Defined.

(** Searching "solar" in category "Energy" lists the wind project (its
    description mentions SOLAR), which is loaded and in that category. *)
Lemma filtered_projects_match_witness :
  In project_wind demo_projects /\ category project_wind = "Energy".
Proof.
  destruct (FrontendProofs.filtered_projects_match toLowerCase_ascii "solar" "Energy"
              demo_projects project_wind ltac:(vm_compute; auto))
    as (H1 & _ & H3).
  split; [exact H1|apply H3; discriminate].
Defined.

End FrontendWitnesses.
